(** * Smart Bookmark App: the client-side reconciliation of the bookmark list

    A shallow embedding of [src/components/bookmarks/BookmarkList.tsx],
    [BookmarkItem.tsx], [AddBookmarkForm.tsx] and [src/app/page.tsx]
    (the dashboard page that wires the add form next to the list).

    React state is modelled by explicit state passing: a [useState] cell is
    a record field, a functional updater [setBookmarks(prev => ...)] is a
    function on the held list.  The Supabase client is an external
    collaborator; what it answers is an input of the model. *)

From stdpp Require Import strings list.

Open Scope string_scope.
Open Scope list_scope.

(** ** Data model *)

(** [interface Bookmark] of BookmarkList.tsx. *)
Record Bookmark := mkBookmark {
  id : string;
  user_id : string;
  title : string;
  url : string;
  created_at : string
}.

(** The payload of a [postgres_changes] event.  The handler reads
    [payload.eventType], [payload.new] and [payload.old.id]. *)
Record Payload := mkPayload {
  eventType : string;
  new : Bookmark;
  old : Bookmark
}.

(** The ids of a held sequence, in order. *)
Definition ids (l : list Bookmark) : list string := map id l.

(** ** The three updaters of the change-feed handler *)

Module Reconciler.

(** INSERT branch:
    [prev => { const exists = prev.some(b => b.id === payload.new.id);
               if (exists) return prev; return [payload.new, ...prev] }] *)
Definition applyAdded (r : Bookmark) (prev : list Bookmark) : list Bookmark :=
  let exists_ := existsb (fun b => String.eqb (id b) (id r)) prev in
  if exists_ then prev else r :: prev.

(** DELETE branch: [prev => prev.filter(b => b.id !== payload.old.id)] *)
Definition applyRemoved (old_id : string) (prev : list Bookmark) : list Bookmark :=
  List.filter (fun b => negb (String.eqb (id b) old_id)) prev.

(** UPDATE branch:
    [prev => prev.map(b => b.id === payload.new.id ? payload.new : b)] *)
Definition applyReplaced (r : Bookmark) (prev : list Bookmark) : list Bookmark :=
  map (fun b => if String.eqb (id b) (id r) then r else b) prev.

(** The callback given to [.on('postgres_changes', ...)]: an if / else-if
    chain on [payload.eventType]; any other event type changes nothing. *)
Definition handleRealtimeEvent (payload : Payload) (prev : list Bookmark)
  : list Bookmark :=
  if String.eqb (eventType payload) "INSERT" then applyAdded (new payload) prev
  else if String.eqb (eventType payload) "DELETE" then applyRemoved (id (old payload)) prev
  else if String.eqb (eventType payload) "UPDATE" then applyReplaced (new payload) prev
  else prev.

(** Events are handled one at a time, in delivery order. *)
Definition deliver (events : list Payload) (prev : list Bookmark) : list Bookmark :=
  fold_left (fun acc p => handleRealtimeEvent p acc) events prev.

End Reconciler.

Import Reconciler.

(** ** The Supabase client, as seen from the components

    Every call the components make is recorded as a [Call]; what the
    service answers is read from a [Supabase] record of answers. *)

(** [user.id] of the object returned by [supabase.auth.getUser()]. *)
Record User := mkUser { uid : string }.

(** The error object of a PostgREST response; the code reads [.message]. *)
Record PostgrestError := mkError { message : string }.

Inductive Call :=
  (** [supabase.auth.getUser()] *)
| GetUser
  (** [.from(t).select(c).eq(col, v).order(ocol, { ascending })] *)
| Select (table columns eq_col eq_val order_col : string) (ascending : bool)
  (** [.from(t).insert([{ user_id, title, url }])] *)
| Insert (table row_user_id row_title row_url : string)
  (** [.from(t).update({ title, url }).eq(col, v)] *)
| Update (table set_title set_url eq_col eq_val : string)
  (** [.from(t).delete().eq(col, v)] *)
| Delete (table eq_col eq_val : string)
  (** [alert(msg)] *)
| Alert (msg : string).

(** [{ data, error }] of a select. *)
Record SelectResponse := mkSelectResponse {
  data : option (list Bookmark);
  select_error : option PostgrestError
}.

Record Supabase := mkSupabase {
  auth_getUser : option User;
  select_answer : Call -> SelectResponse;
  write_answer : Call -> option PostgrestError
}.

(** A callback of type [() => void] acting on the state [P] of the
    component that owns it. *)
Definition Callback (P : Type) : Type := P -> P * list Call.

(** ** BookmarkList: state, fetch, rendering, subscription lifecycle *)

Module BookmarkList.

(** The three [useState] cells. *)
Record State := mkState {
  bookmarks : list Bookmark;
  loading : bool;
  error : string
}.

(** [useState([])], [useState(true)], [useState('')]. *)
Definition initial : State := mkState [] true "".

Definition setBookmarks (v : list Bookmark) (s : State) : State :=
  mkState v (loading s) (error s).
Definition setLoading (v : bool) (s : State) : State :=
  mkState (bookmarks s) v (error s).
Definition setError (v : string) (s : State) : State :=
  mkState (bookmarks s) (loading s) v.

(** The query built by [fetchBookmarks] for the signed-in user. *)
Definition bookmarksQuery (user : User) : Call :=
  Select "bookmarks" "*" "user_id" (uid user) "created_at" false.

(** [fetchBookmarks] (lines 22-48), run to completion. *)
Definition fetchBookmarks (supabase : Supabase) : Callback State := fun s =>
  let s := setLoading true s in
  let s := setError "" s in
  match auth_getUser supabase with
  | None =>
      let s := setError "Not authenticated" s in
      let s := setLoading false s in
      (s, [GetUser])
  | Some user =>
      let q := bookmarksQuery user in
      let r := select_answer supabase q in
      match select_error r with
      | Some fetchError =>
          let s := setError ("Failed to load bookmarks: " +:+ message fetchError) s in
          let s := setLoading false s in
          (s, [GetUser; q])
      | None =>
          (* setBookmarks(data || []) *)
          let s := setBookmarks (default [] (data r)) s in
          let s := setLoading false s in
          (s, [GetUser; q])
      end
  end.

(** A change-feed event reaches the state through [setBookmarks(prev => ...)]. *)
Definition onPostgresChange (payload : Payload) (s : State) : State :=
  setBookmarks (handleRealtimeEvent payload (bookmarks s)) s.

(** The events delivered so far, each handled to completion in turn. *)
Definition feed (events : list Payload) (s : State) : State :=
  fold_left (fun acc payload => onPostgresChange payload acc) events s.

(** What the component returns (lines 114-179), reduced to the branch
    taken and the data shown; [onClick={fetchBookmarks}] is [OnClickFetch]. *)
Inductive Handler := OnClickFetch.

Inductive View :=
| LoadingView
| ErrorView (msg : string) (retry : Handler)
| EmptyView
| ListView (count : nat) (noun : string) (refresh : Handler) (items : list Bookmark).

(** A JavaScript string is truthy when it is not empty. *)
Definition truthy (s : string) : bool := negb (String.eqb s "").

Definition render (s : State) : View :=
  if loading s then LoadingView
  else if truthy (error s) then ErrorView (error s) OnClickFetch
  else if Nat.eqb (length (bookmarks s)) 0 then EmptyView
  else ListView (length (bookmarks s))
                (if Nat.eqb (length (bookmarks s)) 1 then "bookmark" else "bookmarks")
                OnClickFetch (bookmarks s).

(** *** The subscription effect (lines 50-112)

    [let channel] is written by the [.then] callback once
    [setupRealtimeSubscription] has resolved, and read by the cleanup
    function.  The two run as separate tasks of the event loop, in either
    order. *)

Record Channel := mkChannel { topic : string; filter_ : string }.

Record Effect := mkEffect {
  channel : option Channel;        (* the closure variable *)
  subscribed : list Channel;       (* channels the client holds open *)
  removeCalls : list Channel       (* calls of [supabase.removeChannel] *)
}.

(** After the effect body has run: nothing assigned, nothing open. *)
Definition mounted : Effect := mkEffect None [] [].

Inductive Task :=
  (** [setupRealtimeSubscription()] resumes after [await getUser()] and
      the [.then(ch => channel = ch)] callback runs *)
| SetupResolved (user : option User)
  (** React runs the cleanup function *)
| Cleanup.

Definition channelFor (user : User) : Channel :=
  mkChannel "bookmarks-realtime" ("user_id=eq." +:+ uid user).

Fixpoint removeChannel (ch : Channel) (l : list Channel) : list Channel :=
  match l with
  | [] => []
  | c :: l' =>
      if String.eqb (topic c) (topic ch) && String.eqb (filter_ c) (filter_ ch)
      then l' else c :: removeChannel ch l'
  end.

Definition step (e : Effect) (t : Task) : Effect :=
  match t with
  | SetupResolved None => mkEffect None (subscribed e) (removeCalls e)
  | SetupResolved (Some user) =>
      let ch := channelFor user in
      mkEffect (Some ch) (ch :: subscribed e) (removeCalls e)
  | Cleanup =>
      match channel e with
      | Some ch => mkEffect (channel e) (removeChannel ch (subscribed e)) (ch :: removeCalls e)
      | None => e
      end
  end.

Definition run (tasks : list Task) : Effect := fold_left step tasks mounted.

End BookmarkList.

(** ** The mutation entry points *)

(** Two built-ins of the JavaScript runtime are taken as given:
    [String.prototype.trim] and whether [new URL(s)] returns or throws. *)

Module BookmarkItem.

Record State := mkState {
  isEditing : bool;
  editTitle : string;
  editUrl : string;
  saving : bool;
  deleting : bool;
  error : string
}.

(** The [useState] initial values for the item showing [bookmark]. *)
Definition initial (bookmark : Bookmark) : State :=
  mkState false (title bookmark) (url bookmark) false false "".

Definition setIsEditing (v : bool) (s : State) : State :=
  mkState v (editTitle s) (editUrl s) (saving s) (deleting s) (error s).
Definition setEditTitle (v : string) (s : State) : State :=
  mkState (isEditing s) v (editUrl s) (saving s) (deleting s) (error s).
Definition setEditUrl (v : string) (s : State) : State :=
  mkState (isEditing s) (editTitle s) v (saving s) (deleting s) (error s).
Definition setSaving (v : bool) (s : State) : State :=
  mkState (isEditing s) (editTitle s) (editUrl s) v (deleting s) (error s).
Definition setDeleting (v : bool) (s : State) : State :=
  mkState (isEditing s) (editTitle s) (editUrl s) (saving s) v (error s).
Definition setError (v : string) (s : State) : State :=
  mkState (isEditing s) (editTitle s) (editUrl s) (saving s) (deleting s) v.

Definition handleEdit (bookmark : Bookmark) (s : State) : State :=
  setError "" (setEditUrl (url bookmark) (setEditTitle (title bookmark) (setIsEditing true s))).

Definition handleCancelEdit (bookmark : Bookmark) (s : State) : State :=
  setError "" (setEditUrl (url bookmark) (setEditTitle (title bookmark) (setIsEditing false s))).

Section Builtins.
Variable trim : string -> string.
Variable parsesAsURL : string -> bool.

(** [handleSaveEdit] (lines 42-77).  It takes no callback: on success it
    only closes the editor ("Real-time will handle the UI update"). *)
Definition handleSaveEdit (supabase : Supabase) (bookmark : Bookmark) (s : State)
  : State * list Call :=
  if String.eqb (trim (editTitle s)) "" || String.eqb (trim (editUrl s)) "" then
    (setError "Title and URL are required" s, [])
  else if negb (parsesAsURL (editUrl s)) then
    (setError "Please enter a valid URL" s, [])
  else
    let s := setSaving true s in
    let s := setError "" s in
    let q := Update "bookmarks" (trim (editTitle s)) (trim (editUrl s)) "id" (id bookmark) in
    match write_answer supabase q with
    | Some updateError =>
        let s := setError "Failed to update bookmark" s in
        let s := setSaving false s in
        (s, [q])
    | None =>
        let s := setSaving false s in
        let s := setIsEditing false s in
        (s, [q])
    end.

End Builtins.

(** [handleDelete] (lines 79-99).  [confirmed] is the answer of the
    [confirm(...)] dialog; [onDeleted] is the prop, acting on the state
    [P] of whoever passed it. *)
Definition handleDelete {P : Type} (supabase : Supabase) (bookmark : Bookmark)
    (onDeleted : Callback P) (confirmed : bool) (s : State) (parent : P)
  : State * P * list Call :=
  if negb confirmed then (s, parent, [])
  else
    let s := setDeleting true s in
    let q := Delete "bookmarks" "id" (id bookmark) in
    match write_answer supabase q with
    | Some error =>
        let s := setDeleting false s in
        (s, parent, [q; Alert "Failed to delete bookmark"])
    | None =>
        let '(parent', calls) := onDeleted parent in
        (s, parent', q :: calls)
    end.

End BookmarkItem.

Module AddBookmarkForm.

Record State := mkState {
  title : string;
  url : string;
  loading : bool;
  error : string
}.

Definition initial : State := mkState "" "" false "".

Definition setTitle (v : string) (s : State) : State :=
  mkState v (url s) (loading s) (error s).
Definition setUrl (v : string) (s : State) : State :=
  mkState (title s) v (loading s) (error s).
Definition setLoading (v : bool) (s : State) : State :=
  mkState (title s) (url s) v (error s).
Definition setError (v : string) (s : State) : State :=
  mkState (title s) (url s) (loading s) v.

Section Builtins.
Variable trim : string -> string.
Variable parsesAsURL : string -> bool.

(** [handleSubmit] (lines 18-63); [onBookmarkAdded] is the prop. *)
Definition handleSubmit {P : Type} (supabase : Supabase)
    (onBookmarkAdded : Callback P) (s : State) (parent : P)
  : State * P * list Call :=
  let s := setError "" s in
  let s := setLoading true s in
  if negb (parsesAsURL (url s)) then
    let s := setError "Please enter a valid URL" s in
    let s := setLoading false s in
    (s, parent, [])
  else
    match auth_getUser supabase with
    | None =>
        let s := setError "You must be logged in" s in
        let s := setLoading false s in
        (s, parent, [GetUser])
    | Some user =>
        let q := Insert "bookmarks" (uid user) (trim (title s)) (trim (url s)) in
        match write_answer supabase q with
        | Some insertError =>
            let s := setError ("Failed to add bookmark: " +:+ message insertError) s in
            let s := setLoading false s in
            (s, parent, [GetUser; q])
        | None =>
            let s := setTitle "" s in
            let s := setUrl "" s in
            let s := setLoading false s in
            let '(parent', calls) := onBookmarkAdded parent in
            (s, parent', GetUser :: q :: calls)
        end
    end.

End Builtins.

End AddBookmarkForm.

(** ** How the dashboard wires the components together *)

Module Dashboard.

(** page.tsx: [<AddBookmarkForm onBookmarkAdded={() => { }} />] *)
Definition onBookmarkAdded : Callback BookmarkList.State := fun s => (s, []).

(** BookmarkList.tsx line 175: [onDeleted={fetchBookmarks}] *)
Definition onDeleted (supabase : Supabase) : Callback BookmarkList.State :=
  BookmarkList.fetchBookmarks supabase.

(** What the user can do to change the stored bookmarks. *)
Inductive UserAction :=
| SubmitAdd (form : AddBookmarkForm.State)
| SaveEdit (bookmark : Bookmark) (item : BookmarkItem.State)
| ClickDelete (bookmark : Bookmark) (item : BookmarkItem.State) (confirmed : bool).

Section Builtins.
Variable trim : string -> string.
Variable parsesAsURL : string -> bool.

(** The state of the list, and the calls made, once the handler of the
    action has run to completion. *)
Definition act (supabase : Supabase) (a : UserAction) (held : BookmarkList.State)
  : BookmarkList.State * list Call :=
  match a with
  | SubmitAdd form =>
      let '(_, held', calls) :=
        AddBookmarkForm.handleSubmit trim parsesAsURL supabase onBookmarkAdded form held in
      (held', calls)
  | SaveEdit bookmark item =>
      let '(_, calls) := BookmarkItem.handleSaveEdit trim parsesAsURL supabase bookmark item in
      (held, calls)
  | ClickDelete bookmark item confirmed =>
      let '(_, held', calls) :=
        BookmarkItem.handleDelete supabase bookmark (onDeleted supabase) confirmed item held in
      (held', calls)
  end.

End Builtins.

End Dashboard.

(** ** A small running example (the scenario of the specification) *)

Definition bmA : Bookmark := mkBookmark "1" "u1" "A" "https://a.example" "2024-01-02T00:00:00Z".
Definition bmB : Bookmark := mkBookmark "2" "u1" "B" "https://b.example" "2024-01-01T00:00:00Z".
Definition bmC : Bookmark := mkBookmark "3" "u1" "C" "https://c.example" "2023-06-01T00:00:00Z".
Definition bmA2 : Bookmark := mkBookmark "1" "u1" "A2" "https://a2.example" "2024-01-02T00:00:00Z".

(** Answers of the service used in the examples: nobody signed in; the
    query failing; the query returning [rows]. *)
Definition alice : User := mkUser "u1".

Definition signedOut : Supabase :=
  mkSupabase None (fun _ => mkSelectResponse None None) (fun _ => None).

Definition queryDown : Supabase :=
  mkSupabase (Some alice)
             (fun _ => mkSelectResponse None (Some (mkError "connection refused")))
             (fun _ => None).

Definition serving (rows : list Bookmark) : Supabase :=
  mkSupabase (Some alice) (fun _ => mkSelectResponse (Some rows) None) (fun _ => None).

(** A run of the change feed that delivers an INSERT for a new record, an
    INSERT for an id already held, an UPDATE and a DELETE. *)
Definition redelivery : list Payload :=
  [mkPayload "INSERT" bmC bmC; mkPayload "INSERT" bmA2 bmA2;
   mkPayload "UPDATE" bmA2 bmA; mkPayload "DELETE" bmB bmB].

(** Stand-ins for the two built-ins where a closed term needs them; the
    delete handler uses neither. *)
Definition noTrim : string -> string := fun s => s.
Definition anyURL : string -> bool := fun _ => true.

(** A list view showing two bookmarks. *)
Definition shown : BookmarkList.State := BookmarkList.mkState [bmA; bmB] false "".

(** ** The life of a mounted list

    What happens to the state of a mounted [BookmarkList]: a run of
    [fetchBookmarks] (on mount, from the Retry and Refresh buttons, from
    [onDeleted]) or an event of the change feed, one after the other. *)

Module ListLife.

Inductive Op :=
| Fetch (supabase : Supabase)
| Event (payload : Payload).

Definition perform (s : BookmarkList.State) (op : Op) : BookmarkList.State :=
  match op with
  | Fetch supabase => (BookmarkList.fetchBookmarks supabase s).1
  | Event payload => BookmarkList.onPostgresChange payload s
  end.

Definition life (ops : list Op) : BookmarkList.State :=
  fold_left perform ops BookmarkList.initial.

(** The rows of every answer of the service have pairwise-distinct ids
    ([id] is the primary key of the table). *)
Definition distinctRows (supabase : Supabase) : Prop :=
  ∀ q rows, data (select_answer supabase q) = Some rows → NoDup (ids rows).

Definition answersDistinct (op : Op) : Prop :=
  match op with
  | Fetch supabase => distinctRows supabase
  | Event _ => True
  end.

End ListLife.

(** ** The submit button of the add form *)

Module AddBookmarkFormView.

Section Builtins.
Variable trim : string -> string.

(** AddBookmarkForm.tsx line 108:
    [disabled={loading || !title.trim() || !url.trim()}] *)
Definition submitDisabled (s : AddBookmarkForm.State) : bool :=
  AddBookmarkForm.loading s
  || String.eqb (trim (AddBookmarkForm.title s)) ""
  || String.eqb (trim (AddBookmarkForm.url s)) "".

End Builtins.

End AddBookmarkFormView.

(** ** The two server-rendered routes

    [src/app/page.tsx] serves "/" and [src/app/dashboard/layout.tsx] wraps
    "/dashboard"; each reads the user and either redirects or renders. *)

Module Pages.

Inductive Outcome :=
| Redirect (path : string)
| RenderLogin
| RenderDashboard (user : User).

(** [Home]: [if (user) redirect('/dashboard')], else the login page. *)
Definition Home (user : option User) : Outcome :=
  match user with
  | Some _ => Redirect "/dashboard"
  | None => RenderLogin
  end.

(** [DashboardLayout]: [if (!user) redirect('/')], else the dashboard. *)
Definition DashboardLayout (user : option User) : Outcome :=
  match user with
  | None => Redirect "/"
  | Some u => RenderDashboard u
  end.

Definition route (path : string) (user : option User) : option Outcome :=
  if String.eqb path "/" then Some (Home user)
  else if String.eqb path "/dashboard" then Some (DashboardLayout user)
  else None.

(** Request [path] and follow at most [hops] redirects. *)
Fixpoint visit (hops : nat) (path : string) (user : option User) : option Outcome :=
  match route path user with
  | Some (Redirect target) =>
      match hops with
      | O => Some (Redirect target)
      | S hops' => visit hops' target user
      end
  | other => other
  end.

End Pages.

(** More values for the examples. *)
Definition typedForm : AddBookmarkForm.State :=
  AddBookmarkForm.mkState "C" "https://c.example" false "".


Definition writesFail : Supabase :=
  mkSupabase (Some alice) (fun _ => mkSelectResponse (Some []) None)
             (fun _ => Some (mkError "permission denied")).

Definition aLife : list ListLife.Op :=
  [ListLife.Fetch (serving [bmA; bmB]);
   ListLife.Event (mkPayload "INSERT" bmC bmC);
   ListLife.Event (mkPayload "INSERT" bmA2 bmA2);
   ListLife.Fetch queryDown;
   ListLife.Event (mkPayload "UPDATE" bmA2 bmA);
   ListLife.Event (mkPayload "DELETE" bmB bmB)].

(** * Properties of the reconciliation *)

(** ** Membership test of the INSERT branch *)

Section ReconcilerFacts.
Implicit Types (r b : Bookmark) (s prev : list Bookmark) (i : string).

Lemma some_id_true i s :
  existsb (fun b => String.eqb (id b) i) s = true ↔ i ∈ ids s.
Proof.
  induction s as [|b s IH]; simpl.
  - split; [discriminate | intros H; inversion H].
  - rewrite orb_true_iff, IH, String.eqb_eq, elem_of_cons. intuition congruence.
Qed.

Lemma some_id_false i s :
  existsb (fun b => String.eqb (id b) i) s = false ↔ i ∉ ids s.
Proof.
  rewrite <- some_id_true. destruct (existsb _ s); intuition congruence.
Qed.

Lemma applyAdded_present r s : id r ∈ ids s → applyAdded r s = s.
Proof. intros H. unfold applyAdded. apply some_id_true in H. now rewrite H. Qed.

Lemma applyAdded_absent r s : id r ∉ ids s → applyAdded r s = r :: s.
Proof. intros H. unfold applyAdded. apply some_id_false in H. now rewrite H. Qed.

Lemma applyAdded_has_id r s : id r ∈ ids (applyAdded r s).
Proof.
  destruct (decide (id r ∈ ids s)) as [Hin|Hout].
  - now rewrite applyAdded_present.
  - rewrite applyAdded_absent by assumption. simpl. apply list_elem_of_here.
Qed.

Lemma ids_applyReplaced r s : ids (applyReplaced r s) = ids s.
Proof.
  induction s as [|b s IH]; simpl; [reflexivity|].
  f_equal; [|exact IH].
  destruct (String.eqb_spec (id b) (id r)); congruence.
Qed.

Lemma applyRemoved_sublist i s : applyRemoved i s `sublist_of` s.
Proof.
  induction s as [|b s IH]; simpl; [constructor|].
  destruct (negb (id b =? i)); now constructor.
Qed.

Lemma ids_sublist s1 s2 : s1 `sublist_of` s2 → ids s1 `sublist_of` ids s2.
Proof. induction 1; simpl; now constructor. Qed.

Lemma applyRemoved_absent i s : i ∉ ids s → applyRemoved i s = s.
Proof.
  induction s as [|b s IH]; simpl; [reflexivity|].
  rewrite not_elem_of_cons. intros [Hne Hout].
  destruct (String.eqb_spec (id b) i) as [Heq|_]; [congruence|].
  simpl. now rewrite IH.
Qed.

Lemma applyRemoved_app i s1 s2 :
  applyRemoved i (s1 ++ s2) = applyRemoved i s1 ++ applyRemoved i s2.
Proof. apply List.filter_app. Qed.

Lemma applyRemoved_gone i s : i ∉ ids (applyRemoved i s).
Proof.
  induction s as [|b s IH]; simpl; [intros H; inversion H|].
  destruct (String.eqb_spec (id b) i) as [|Hne]; simpl; [exact IH|].
  rewrite not_elem_of_cons. split; [congruence | exact IH].
Qed.

Lemma applyRemoved_keeps i s b : b ∈ s → id b ≠ i → b ∈ applyRemoved i s.
Proof.
  intros Hin Hne. induction s as [|c s IH]; [inversion Hin|].
  apply elem_of_cons in Hin as [<-|Hin]; simpl.
  - destruct (String.eqb_spec (id b) i); [contradiction|]. apply list_elem_of_here.
  - destruct (negb (id c =? i)); [apply list_elem_of_further|]; now apply IH.
Qed.

Lemma handleRealtimeEvent_NoDup payload s :
  NoDup (ids s) → NoDup (ids (handleRealtimeEvent payload s)).
Proof.
  intros Hs. unfold handleRealtimeEvent.
  destruct (eventType payload =? "INSERT").
  { destruct (decide (id (new payload) ∈ ids s)) as [Hin|Hout].
    - now rewrite applyAdded_present.
    - rewrite applyAdded_absent by assumption. simpl. now apply NoDup_cons. }
  destruct (eventType payload =? "DELETE").
  { eapply sublist_NoDup; [exact Hs|]. apply ids_sublist, applyRemoved_sublist. }
  destruct (eventType payload =? "UPDATE"); [|exact Hs].
  now rewrite ids_applyReplaced.
Qed.

Lemma deliver_NoDup events s :
  NoDup (ids s) → NoDup (ids (deliver events s)).
Proof.
  revert s. induction events as [|p events IH]; intros s Hs; simpl; [exact Hs|].
  apply IH, handleRealtimeEvent_NoDup, Hs.
Qed.

End ReconcilerFacts.

Lemma feed_bookmarks events st :
  BookmarkList.bookmarks (BookmarkList.feed events st)
  = deliver events (BookmarkList.bookmarks st).
Proof.
  revert st. induction events as [|p events IH]; intros st; simpl; [reflexivity|].
  unfold BookmarkList.feed in *. simpl. now rewrite IH.
Qed.

(** ** The scenario of the specification, step by step *)

Example scenario_added : ids (applyAdded bmC [bmA; bmB]) = ["3"; "1"; "2"].
Proof. reflexivity. Qed.

Example scenario_replaced :
  applyReplaced bmA2 [bmC; bmA; bmB] = [bmC; bmA2; bmB].
Proof. reflexivity. Qed.

Example scenario_removed : ids (applyRemoved "2" [bmC; bmA2; bmB]) = ["3"; "1"].
Proof. reflexivity. Qed.

(** ** Uniqueness of ids *)

(** C1. Whatever events the change feed delivers, in whatever order, a
    snapshot that starts with pairwise-distinct ids still has
    pairwise-distinct ids afterwards. *)
Theorem feed_preserves_unique_ids (events : list Payload) (st : BookmarkList.State) :
  NoDup (ids (BookmarkList.bookmarks st)) →
  NoDup (ids (BookmarkList.bookmarks (BookmarkList.feed events st))).
Proof. intros H. rewrite feed_bookmarks. now apply deliver_NoDup. Qed.

Lemma feed_preserves_unique_ids_witness :
  NoDup (ids (BookmarkList.bookmarks shown)) ∧
  NoDup (ids (BookmarkList.bookmarks (BookmarkList.feed redelivery shown))).
Proof.
  assert (H : NoDup (ids (BookmarkList.bookmarks shown))) by compute_done.
  split; [exact H | exact (feed_preserves_unique_ids redelivery shown H)].
Defined.

(** ** applyAdded *)

(** C5. Applying the same INSERT twice in a row gives the snapshot of
    applying it once, and an INSERT whose id is already held changes
    nothing. *)
Theorem applyAdded_idempotent (r : Bookmark) (s : list Bookmark) :
  applyAdded r (applyAdded r s) = applyAdded r s ∧
  (id r ∈ ids s → applyAdded r s = s).
Proof.
  split; [|apply applyAdded_present].
  apply applyAdded_present, applyAdded_has_id.
Qed.

Lemma applyAdded_idempotent_witness :
  applyAdded bmC (applyAdded bmC [bmA; bmB]) = applyAdded bmC [bmA; bmB] ∧
  applyAdded bmA [bmA; bmB] = [bmA; bmB].
Proof.
  split.
  - exact (proj1 (applyAdded_idempotent bmC [bmA; bmB])).
  - apply (proj2 (applyAdded_idempotent bmA [bmA; bmB])).
    compute_done.
Defined.

(** C6. An INSERT whose id is not held puts the record in front of the
    held sequence and leaves the rest as it was; the record's
    [created_at] plays no part. *)
Theorem applyAdded_prepends (r : Bookmark) (s : list Bookmark) :
  id r ∉ ids s → applyAdded r s = r :: s.
Proof. apply applyAdded_absent. Qed.

(** [bmC] is older than both held records and still goes to the front. *)
Lemma applyAdded_prepends_witness :
  (id bmC ∉ ids [bmA; bmB]) ∧ applyAdded bmC [bmA; bmB] = [bmC; bmA; bmB].
Proof.
  assert (H : id bmC ∉ ids [bmA; bmB]).
  { compute_done. }
  split; [exact H | exact (applyAdded_prepends bmC [bmA; bmB] H)].
Defined.

(** C10. An INSERT whose id is already held is dropped whole: the
    snapshot is the one before, position by position, so the held
    record keeps its field values and the payload does not enter the
    sequence unless it was there already. *)
Theorem applyAdded_held_record_wins (r : Bookmark) (s : list Bookmark) :
  id r ∈ ids s →
  applyAdded r s = s ∧
  (∀ i, applyAdded r s !! i = s !! i) ∧
  (r ∉ s → r ∉ applyAdded r s).
Proof.
  intros H. rewrite (applyAdded_present r s H). auto.
Qed.

(** [bmA2] has the id of [bmA] and another title and url. *)
Lemma applyAdded_held_record_wins_witness :
  id bmA2 ∈ ids [bmA; bmB] ∧ bmA2 ≠ bmA ∧ applyAdded bmA2 [bmA; bmB] = [bmA; bmB].
Proof.
  assert (H : id bmA2 ∈ ids [bmA; bmB]).
  { compute_done. }
  split; [exact H|]. split; [discriminate|].
  exact (proj1 (applyAdded_held_record_wins bmA2 [bmA; bmB] H)).
Defined.

(** ** applyReplaced *)

Lemma applyReplaced_lookup (r : Bookmark) (s : list Bookmark) (i : nat) :
  applyReplaced r s !! i
  = (λ b, if String.eqb (id b) (id r) then r else b) <$> s !! i.
Proof.
  revert i. induction s as [|b s IH]; intros [|i]; simpl; auto.
Qed.

Lemma applyReplaced_absent (r : Bookmark) (s : list Bookmark) :
  id r ∉ ids s → applyReplaced r s = s.
Proof.
  induction s as [|b s IH]; simpl; [reflexivity|].
  rewrite not_elem_of_cons. intros [Hne Hout].
  destruct (String.eqb_spec (id b) (id r)) as [Heq|_]; [congruence|].
  now rewrite IH.
Qed.

(** C7. An UPDATE whose id is held puts the payload at the position of
    the held record and leaves every other position, the sequence of
    ids and the length as they were; an UPDATE whose id is not held
    changes nothing. *)
Theorem applyReplaced_in_place (r : Bookmark) (s : list Bookmark) :
  length (applyReplaced r s) = length s ∧
  ids (applyReplaced r s) = ids s ∧
  (∀ i b, s !! i = Some b →
     (id b = id r → applyReplaced r s !! i = Some r) ∧
     (id b ≠ id r → applyReplaced r s !! i = Some b)) ∧
  (id r ∉ ids s → applyReplaced r s = s).
Proof.
  split; [apply length_map|].
  split; [apply ids_applyReplaced|].
  split; [|apply applyReplaced_absent].
  intros i b Hi. rewrite applyReplaced_lookup, Hi. simpl.
  destruct (String.eqb_spec (id b) (id r)); split; intros; congruence.
Qed.

Lemma applyReplaced_in_place_witness :
  [bmC; bmA; bmB] !! 1 = Some bmA ∧ id bmA = id bmA2 ∧
  applyReplaced bmA2 [bmC; bmA; bmB] !! 1 = Some bmA2 ∧
  applyReplaced bmA2 [bmC; bmA; bmB] !! 0 = Some bmC ∧
  (id bmA2 ∉ ids [bmC; bmB]) ∧
  applyReplaced bmA2 [bmC; bmB] = [bmC; bmB].
Proof.
  pose proof (applyReplaced_in_place bmA2 [bmC; bmA; bmB]) as (_ & _ & Hpos & _).
  pose proof (applyReplaced_in_place bmA2 [bmC; bmB]) as (_ & _ & _ & Habs).
  assert (Hout : id bmA2 ∉ ids [bmC; bmB]) by compute_done.
  split; [reflexivity|]. split; [reflexivity|].
  split; [exact (proj1 (Hpos 1 bmA eq_refl) eq_refl)|].
  split; [apply (proj2 (Hpos 0 bmC eq_refl)); discriminate|].
  split; [exact Hout | exact (Habs Hout)].
Defined.

(** ** applyRemoved *)

(** C8. A DELETE takes the record with the given id out of the held
    sequence: no record with that id is left, every other record stays,
    the rest keeps its order (with no other record of that id around,
    what is left is exactly what was before and after the record); a
    DELETE whose id is not held changes nothing. *)
Theorem applyRemoved_removes (i : string) (s : list Bookmark) :
  (i ∉ ids (applyRemoved i s)) ∧
  applyRemoved i s `sublist_of` s ∧
  (∀ b, b ∈ s → id b ≠ i → b ∈ applyRemoved i s) ∧
  (∀ s1 b s2, s = s1 ++ b :: s2 → id b = i → i ∉ ids s1 → i ∉ ids s2 →
     applyRemoved i s = s1 ++ s2) ∧
  (i ∉ ids s → applyRemoved i s = s).
Proof.
  split; [apply applyRemoved_gone|].
  split; [apply applyRemoved_sublist|].
  split; [apply applyRemoved_keeps|].
  split; [|apply applyRemoved_absent].
  intros s1 b s2 -> Hb H1 H2.
  rewrite applyRemoved_app. simpl.
  destruct (String.eqb_spec (id b) i) as [_|Hne]; [|contradiction].
  simpl. now rewrite !applyRemoved_absent.
Qed.

Lemma applyRemoved_removes_witness :
  applyRemoved "2" [bmC; bmA2; bmB; bmA] = [bmC; bmA2] ++ [bmA] ∧
  (bmC ∈ applyRemoved "2" [bmC; bmA2; bmB; bmA]) ∧
  applyRemoved "7" [bmC; bmA2; bmB] = [bmC; bmA2; bmB].
Proof.
  pose proof (applyRemoved_removes "2" [bmC; bmA2; bmB; bmA]) as (_ & _ & Hkeep & Hcut & _).
  pose proof (applyRemoved_removes "7" [bmC; bmA2; bmB]) as (_ & _ & _ & _ & Habs).
  split.
  { apply (Hcut [bmC; bmA2] bmB [bmA]); [reflexivity | reflexivity | |]; compute_done. }
  split.
  { apply Hkeep; [apply list_elem_of_here | compute_done]. }
  apply Habs. compute_done.
Defined.

(** * Properties of the initial load *)

Section Bootstrap.
Import BookmarkList.

(** C2. When nobody is signed in the load ends with the error
    "Not authenticated", and when the query fails it ends with
    "Failed to load bookmarks: " followed by the message of the upstream
    error.  Either way the held sequence is the one from before, and the
    component renders the error with a button that runs the load again. *)
Theorem fetchBookmarks_failure (supabase : Supabase) (s : State) :
  (auth_getUser supabase = None →
     let s' := (fetchBookmarks supabase s).1 in
     bookmarks s' = bookmarks s ∧
     error s' = "Not authenticated" ∧
     render s' = ErrorView "Not authenticated" OnClickFetch) ∧
  (∀ user fetchError,
     auth_getUser supabase = Some user →
     select_error (select_answer supabase (bookmarksQuery user)) = Some fetchError →
     let s' := (fetchBookmarks supabase s).1 in
     bookmarks s' = bookmarks s ∧
     error s' = "Failed to load bookmarks: " +:+ message fetchError ∧
     render s' = ErrorView ("Failed to load bookmarks: " +:+ message fetchError) OnClickFetch).
Proof.
  split.
  - intros Hu. unfold fetchBookmarks. rewrite Hu. simpl. auto.
  - intros user fetchError Hu He. unfold fetchBookmarks. rewrite Hu. simpl.
    rewrite He. simpl. auto.
Qed.

Lemma fetchBookmarks_failure_witness :
  bookmarks (fetchBookmarks signedOut shown).1 = [bmA; bmB] ∧
  render (fetchBookmarks signedOut shown).1 = ErrorView "Not authenticated" OnClickFetch ∧
  bookmarks (fetchBookmarks queryDown shown).1 = [bmA; bmB] ∧
  error (fetchBookmarks queryDown shown).1 = "Failed to load bookmarks: connection refused".
Proof.
  pose proof (proj1 (fetchBookmarks_failure signedOut shown) eq_refl) as (Hb & _ & Hr).
  pose proof (proj2 (fetchBookmarks_failure queryDown shown) alice
                (mkError "connection refused") eq_refl eq_refl) as (Hb' & He' & _).
  split; [exact Hb|]. split; [exact Hr|]. split; [exact Hb' | exact He'].
Defined.

(** C9. When somebody is signed in and the query does not fail, the load
    makes one query, on table "bookmarks" for the rows whose [user_id] is
    the user's id, ordered by [created_at] descending, and the held
    sequence becomes the rows of the answer, in the order of the answer. *)
Theorem fetchBookmarks_success (supabase : Supabase) (s : State) (user : User) :
  auth_getUser supabase = Some user →
  select_error (select_answer supabase (bookmarksQuery user)) = None →
  (fetchBookmarks supabase s).2
    = [GetUser; Select "bookmarks" "*" "user_id" (uid user) "created_at" false] ∧
  (∀ rows, data (select_answer supabase (bookmarksQuery user)) = Some rows →
     (fetchBookmarks supabase s).1 = mkState rows false "") ∧
  (data (select_answer supabase (bookmarksQuery user)) = None →
     (fetchBookmarks supabase s).1 = mkState [] false "").
Proof.
  intros Hu He. unfold fetchBookmarks. rewrite Hu. simpl. rewrite He. simpl.
  split; [reflexivity|].
  split; [intros rows Hd | intros Hd]; now rewrite Hd.
Qed.

Lemma fetchBookmarks_success_witness :
  ids (bookmarks (fetchBookmarks (serving [bmA; bmB]) shown).1) = ["1"; "2"] ∧
  bookmarks (fetchBookmarks (serving [bmC]) shown).1 = [bmC].
Proof.
  pose proof (fetchBookmarks_success (serving [bmA; bmB]) shown alice eq_refl eq_refl)
    as (_ & H1 & _).
  pose proof (fetchBookmarks_success (serving [bmC]) shown alice eq_refl eq_refl)
    as (_ & H2 & _).
  split.
  - now rewrite (H1 [bmA; bmB] eq_refl).
  - now rewrite (H2 [bmC] eq_refl).
Defined.

End Bootstrap.

(** * The subscription over the life of the view *)

Section Subscription.
Import BookmarkList.

(** When the set-up has resolved before the view is torn down, the
    cleanup calls [removeChannel] once and nothing stays open. *)
Lemma cleanup_after_setup (user : User) :
  run [SetupResolved (Some user); Cleanup]
  = mkEffect (Some (channelFor user)) [] [channelFor user].
Proof.
  unfold run. simpl. now rewrite !String.eqb_refl.
Qed.

(** With nothing assigned to [channel] the cleanup does nothing. *)
Lemma cleanup_unassigned (e : Effect) :
  channel e = None → step e Cleanup = e.
Proof. intros H. simpl. now rewrite H. Qed.

(** C3. When the view is torn down while [setupRealtimeSubscription] is
    still waiting, the cleanup finds [channel] unassigned and does
    nothing; the set-up then resumes and subscribes, and that
    subscription stays open with [removeChannel] never called. *)
Theorem cleanup_before_setup_leaks (user : User) :
  run [Cleanup] = mounted ∧
  run [Cleanup; SetupResolved (Some user)]
  = mkEffect (Some (channelFor user)) [channelFor user] [].
Proof. split; reflexivity. Qed.

End Subscription.

(** * The mutation entry points and the held sequence *)

Section Mutations.
Import BookmarkList Dashboard.
Variable trim : string → string.
Variable parsesAsURL : string → bool.

Lemma handleSubmit_parent (supabase : Supabase) form (held : State) :
  (AddBookmarkForm.handleSubmit trim parsesAsURL supabase onBookmarkAdded form held).1.2
  = held.
Proof.
  unfold AddBookmarkForm.handleSubmit, onBookmarkAdded. simpl.
  destruct (parsesAsURL _); simpl; [|reflexivity].
  destruct (auth_getUser supabase); simpl; [|reflexivity].
  destruct (write_answer supabase _); reflexivity.
Qed.

(** C4, as the code has it.  Adding and editing leave the whole state of
    the list alone, so their result reaches the list through the change
    feed only.  Deleting leaves it alone when the dialog is dismissed or
    the delete fails; after a delete that went through it runs
    [fetchBookmarks], the load, on the list. *)
Theorem only_delete_reloads (supabase : Supabase) (a : UserAction) (held : State) :
  (act trim parsesAsURL supabase a held).1
  = match a with
    | SubmitAdd _ | SaveEdit _ _ => held
    | ClickDelete bookmark _ confirmed =>
        match write_answer supabase (Delete "bookmarks" "id" (id bookmark)) with
        | None => if confirmed then (fetchBookmarks supabase held).1 else held
        | Some _ => held
        end
    end.
Proof.
  destruct a as [form | bookmark item | bookmark item confirmed]; simpl.
  - pose proof (handleSubmit_parent supabase form held) as H.
    destruct (AddBookmarkForm.handleSubmit _ _ _ _ _ _) as [[? ?] ?]. exact H.
  - destruct (BookmarkItem.handleSaveEdit _ _ _ _ _). reflexivity.
  - unfold BookmarkItem.handleDelete, onDeleted.
    destruct confirmed; simpl.
    + destruct (write_answer supabase _); simpl; [reflexivity|].
      destruct (fetchBookmarks supabase held). reflexivity.
    + destruct (write_answer supabase _); reflexivity.
Qed.

End Mutations.

(** C4, as the specification has it, fails on a delete: the user
    deletes [bmB] from a list showing [bmA; bmB], the delete goes
    through, the reload returns [bmA], and the held sequence has changed
    with no event of the change feed handled. *)
Lemma delete_changes_held_sequence :
  BookmarkList.bookmarks
    (Dashboard.act noTrim anyURL (serving [bmA])
       (Dashboard.ClickDelete bmB (BookmarkItem.initial bmB) true) shown).1
  = [bmA] ∧
  BookmarkList.bookmarks
    (Dashboard.act noTrim anyURL (serving [bmA])
       (Dashboard.ClickDelete bmB (BookmarkItem.initial bmB) true) shown).1
  ≠ BookmarkList.bookmarks shown.
Proof. split; [reflexivity | discriminate]. Qed.

(** * Further properties of the change-feed handler *)

(** Case analysis on every string comparison left in the goal. *)
Ltac string_cases :=
  repeat (simpl;
          match goal with
          | |- context [String.eqb ?x ?y] => destruct (String.eqb_spec x y)
          end);
  simpl; try congruence.

Section HandlerFacts.
Implicit Types (r b : Bookmark) (s : list Bookmark) (i j : string) (p : Payload).

Lemma applyReplaced_twice r s :
  applyReplaced r (applyReplaced r s) = applyReplaced r s.
Proof.
  induction s as [|b s IH]; simpl; [reflexivity|]. f_equal; [|exact IH].
  destruct (String.eqb_spec (id b) (id r)) as [_|Hne].
  - now rewrite String.eqb_refl.
  - now apply String.eqb_neq in Hne as ->.
Qed.

Lemma applyRemoved_twice i s :
  applyRemoved i (applyRemoved i s) = applyRemoved i s.
Proof. apply applyRemoved_absent, applyRemoved_gone. Qed.

(** X1. Delivering the same event a second time, whatever its kind,
    changes nothing more. *)
Theorem handleRealtimeEvent_redelivered p s :
  handleRealtimeEvent p (handleRealtimeEvent p s) = handleRealtimeEvent p s.
Proof.
  unfold handleRealtimeEvent.
  destruct (eventType p =? "INSERT").
  { apply applyAdded_present, applyAdded_has_id. }
  destruct (eventType p =? "DELETE"); [apply applyRemoved_twice|].
  destruct (eventType p =? "UPDATE"); [apply applyReplaced_twice | reflexivity].
Qed.

(** X2. A DELETE that follows the INSERT of the same id undoes it: what
    is left is the sequence without any record of that id, which is the
    sequence from before the INSERT when the id was new. *)
Theorem applyRemoved_after_applyAdded r s :
  applyRemoved (id r) (applyAdded r s) = applyRemoved (id r) s ∧
  (id r ∉ ids s → applyRemoved (id r) (applyAdded r s) = s).
Proof.
  assert (H : applyRemoved (id r) (applyAdded r s) = applyRemoved (id r) s).
  { destruct (decide (id r ∈ ids s)) as [Hin|Hout].
    - now rewrite applyAdded_present.
    - rewrite applyAdded_absent by assumption. simpl. now rewrite String.eqb_refl. }
  split; [exact H|]. intros Hout. rewrite H. now apply applyRemoved_absent.
Qed.

Lemma applyRemoved_after_applyAdded_witness :
  applyRemoved "3" (applyAdded bmC [bmA; bmB]) = [bmA; bmB] ∧
  applyRemoved "1" (applyAdded bmA2 [bmA; bmB]) = [bmB].
Proof.
  split.
  - apply (proj2 (applyRemoved_after_applyAdded bmC [bmA; bmB])). compute_done.
  - exact (proj1 (applyRemoved_after_applyAdded bmA2 [bmA; bmB])).
Defined.

(** X3. A DELETE and an UPDATE can be handled in either order, and so
    can two DELETEs: the snapshot is the same. *)
Theorem removed_commutes i j r s :
  applyRemoved i (applyReplaced r s) = applyReplaced r (applyRemoved i s) ∧
  applyRemoved i (applyRemoved j s) = applyRemoved j (applyRemoved i s).
Proof.
  split.
  - induction s as [|b s IH]; simpl; [reflexivity|].
    assert (Hid : id (if id b =? id r then r else b) = id b).
    { destruct (String.eqb_spec (id b) (id r)); congruence. }
    rewrite Hid. destruct (id b =? i); simpl; now rewrite IH.
  - induction s as [|b s IH]; simpl; [reflexivity|].
    destruct (id b =? j) eqn:Hj, (id b =? i) eqn:Hi; simpl;
      rewrite ?Hi, ?Hj; simpl; now rewrite IH.
Qed.

Lemma some_id_applyRemoved i j s :
  i ≠ j →
  existsb (λ b, id b =? j) (applyRemoved i s) = existsb (λ b, id b =? j) s.
Proof.
  intros Hne. induction s as [|b s IH]; simpl; [reflexivity|].
  destruct (String.eqb_spec (id b) i) as [Hi|Hi]; simpl.
  - destruct (String.eqb_spec (id b) j); [congruence | exact IH].
  - now rewrite IH.
Qed.

(** X4. Events about different records: two UPDATEs with different ids
    can be handled in either order, and so can a DELETE and an INSERT
    with different ids. *)
Theorem different_ids_commute r1 r2 i s :
  (id r1 ≠ id r2 →
     applyReplaced r1 (applyReplaced r2 s) = applyReplaced r2 (applyReplaced r1 s)) ∧
  (i ≠ id r1 →
     applyRemoved i (applyAdded r1 s) = applyAdded r1 (applyRemoved i s)).
Proof.
  split.
  - intros Hne. induction s as [|b s IH]; simpl; [reflexivity|].
    f_equal; [|exact IH].
    destruct (String.eqb_spec (id b) (id r2)), (String.eqb_spec (id b) (id r1));
      string_cases.
  - intros Hne. unfold applyAdded. rewrite some_id_applyRemoved by assumption.
    destruct (existsb _ s); [reflexivity|]. simpl.
    assert (id r1 ≠ i) as ->%String.eqb_neq by congruence. reflexivity.
Qed.

Lemma different_ids_commute_witness :
  applyReplaced bmA2 (applyReplaced bmB [bmA; bmB])
  = applyReplaced bmB (applyReplaced bmA2 [bmA; bmB]) ∧
  applyRemoved "2" (applyAdded bmC [bmA; bmB])
  = applyAdded bmC (applyRemoved "2" [bmA; bmB]).
Proof.
  split.
  - apply (proj1 (different_ids_commute bmA2 bmB "2" [bmA; bmB])). compute_done.
  - apply (proj2 (different_ids_commute bmC bmB "2" [bmA; bmB])). compute_done.
Defined.

End HandlerFacts.

Section HandlerRecords.
Implicit Types (r b : Bookmark) (s : list Bookmark) (p : Payload).

Lemma applyReplaced_elem r s b :
  b ∈ applyReplaced r s → (b = r ∧ id r ∈ ids s) ∨ (b ∈ s ∧ id b ≠ id r).
Proof.
  induction s as [|c s IH]; simpl; [intros H; inversion H|].
  rewrite elem_of_cons. intros [->|Hin].
  - destruct (String.eqb_spec (id c) (id r)) as [Heq|Hne].
    + left. split; [reflexivity|]. rewrite <- Heq. apply list_elem_of_here.
    + right. split; [apply list_elem_of_here | exact Hne].
  - destruct (IH Hin) as [[-> Hr]|[Hb Hne]].
    + left. split; [reflexivity | now apply list_elem_of_further].
    + right. split; [now apply list_elem_of_further | exact Hne].
Qed.

Lemma handleRealtimeEvent_elem p s b :
  b ∈ handleRealtimeEvent p s →
  b ∈ s ∨ (b = new p ∧ (eventType p = "INSERT" ∨ eventType p = "UPDATE")).
Proof.
  unfold handleRealtimeEvent.
  destruct (String.eqb_spec (eventType p) "INSERT") as [Hi|_].
  { unfold applyAdded. destruct (existsb _ s); [now left|].
    rewrite elem_of_cons. intros [->|H]; [right|left]; auto. }
  destruct (String.eqb_spec (eventType p) "DELETE") as [_|_].
  { intros H. left. eapply elem_of_sublist; [exact H | apply applyRemoved_sublist]. }
  destruct (String.eqb_spec (eventType p) "UPDATE") as [Hu|_]; [|now left].
  intros H. destruct (applyReplaced_elem _ _ _ H) as [[-> _]|[Hb _]]; auto.
Qed.

(** X5. The handler makes up no record: whatever is in the snapshot
    after a run of events was in it before or is the [new] record of
    one of the INSERT or UPDATE events of the run. *)
Theorem deliver_no_invention (events : list Payload) s b :
  b ∈ deliver events s →
  b ∈ s ∨ ∃ p, p ∈ events ∧ b = new p ∧
              (eventType p = "INSERT" ∨ eventType p = "UPDATE").
Proof.
  revert s. induction events as [|p events IH]; intros s; simpl; [now left|].
  intros H. destruct (IH _ H) as [Hs|(q & Hq & Hb)].
  - destruct (handleRealtimeEvent_elem _ _ _ Hs) as [Hin|[-> Hk]]; [now left|].
    right. exists p. split; [apply list_elem_of_here | auto].
  - right. exists q. split; [now apply list_elem_of_further | exact Hb].
Qed.

Lemma deliver_no_invention_witness :
  bmC ∈ deliver redelivery [bmA; bmB] ∧
  (bmC ∈ [bmA; bmB] ∨
   ∃ p, p ∈ redelivery ∧ bmC = new p ∧
        (eventType p = "INSERT" ∨ eventType p = "UPDATE")).
Proof.
  assert (H : bmC ∈ deliver redelivery [bmA; bmB]) by apply list_elem_of_here.
  split; [exact H | exact (deliver_no_invention redelivery [bmA; bmB] bmC H)].
Defined.

(** X6. After an UPDATE no other version of the record is left: every
    held record with the id of the payload is the payload itself, and
    when the id was held the payload is in the snapshot. *)
Theorem applyReplaced_no_stale_version r s :
  (∀ b, b ∈ applyReplaced r s → id b = id r → b = r) ∧
  (id r ∈ ids s → r ∈ applyReplaced r s).
Proof.
  split.
  - intros b Hb Hid. destruct (applyReplaced_elem _ _ _ Hb) as [[-> _]|[_ Hne]];
      [reflexivity | contradiction].
  - induction s as [|c s IH]; simpl; [intros H; inversion H|].
    rewrite elem_of_cons. intros [Heq|Hin].
    + rewrite <- Heq, String.eqb_refl. apply list_elem_of_here.
    + apply list_elem_of_further, IH, Hin.
Qed.

Lemma applyReplaced_no_stale_version_witness :
  bmA2 ∈ applyReplaced bmA2 [bmC; bmA; bmB] ∧
  bmA ∉ applyReplaced bmA2 [bmC; bmA; bmB].
Proof.
  split.
  - apply (proj2 (applyReplaced_no_stale_version bmA2 [bmC; bmA; bmB])). compute_done.
  - intros H.
    pose proof (proj1 (applyReplaced_no_stale_version bmA2 [bmC; bmA; bmB])
                  bmA H eq_refl) as Heq.
    discriminate Heq.
Defined.

End HandlerRecords.

Section FeedFrame.
Import BookmarkList.

(** X7. Events of the change feed touch the held sequence only: the
    loading flag and the error message stay as they are, so a view that
    shows the spinner or an error keeps showing it while events arrive. *)
Theorem feed_keeps_loading_and_error (events : list Payload) (st : State) :
  loading (feed events st) = loading st ∧
  error (feed events st) = error st ∧
  (loading st = true ∨ truthy (error st) = true →
   render (feed events st) = render st).
Proof.
  assert (H : loading (feed events st) = loading st ∧ error (feed events st) = error st).
  { revert st. induction events as [|p events IH]; intros st; [split; reflexivity|].
    unfold feed in *. simpl. destruct (IH (onPostgresChange p st)) as [-> ->].
    split; reflexivity. }
  destruct H as [Hl He]. split; [exact Hl|]. split; [exact He|].
  unfold render. rewrite Hl, He. intros [->| ->]; [reflexivity|].
  destruct (loading st); reflexivity.
Qed.

Lemma feed_keeps_loading_and_error_witness :
  render (feed redelivery (fetchBookmarks signedOut shown).1)
  = ErrorView "Not authenticated" OnClickFetch.
Proof.
  rewrite (proj2 (proj2 (feed_keeps_loading_and_error redelivery
                           (fetchBookmarks signedOut shown).1))).
  - reflexivity.
  - right. reflexivity.
Defined.

End FeedFrame.

(** * Further properties of the load *)

Section FetchFacts.
Import BookmarkList ListLife.

(** X8. Running the load again against the same answers (the Retry
    and Refresh buttons) gives the state and makes the calls of the
    first run. *)
Theorem fetchBookmarks_again (supabase : Supabase) (s : State) :
  fetchBookmarks supabase (fetchBookmarks supabase s).1 = fetchBookmarks supabase s.
Proof.
  unfold fetchBookmarks. destruct (auth_getUser supabase) as [user|]; simpl.
  - destruct (select_error _); reflexivity.
  - reflexivity.
Qed.

(** X9. However the load ends, the loading flag is off again, so the
    view is not left on the spinner. *)
Theorem fetchBookmarks_stops_loading (supabase : Supabase) (s : State) :
  loading (fetchBookmarks supabase s).1 = false ∧
  render (fetchBookmarks supabase s).1 ≠ LoadingView.
Proof.
  assert (H : loading (fetchBookmarks supabase s).1 = false).
  { unfold fetchBookmarks. destruct (auth_getUser supabase) as [user|]; simpl.
    - destruct (select_error _); reflexivity.
    - reflexivity. }
  split; [exact H|]. unfold render. rewrite H.
  destruct (truthy _); [discriminate|].
  destruct (length _ =? 0)%nat; discriminate.
Qed.

Lemma perform_NoDup (s : State) (op : Op) :
  answersDistinct op → NoDup (ids (bookmarks s)) → NoDup (ids (bookmarks (perform s op))).
Proof.
  destruct op as [supabase|payload]; simpl; intros Hop Hs.
  - unfold fetchBookmarks. destruct (auth_getUser supabase) as [user|]; simpl; [|exact Hs].
    destruct (select_error _); simpl; [exact Hs|].
    destruct (data _) as [rows|] eqn:Hd; simpl; [|constructor].
    exact (Hop _ _ Hd).
  - now apply handleRealtimeEvent_NoDup.
Qed.

(** X10. Over the whole life of a mounted list, loads and events of
    the change feed in any order, the held records have pairwise-distinct
    ids, as long as the rows of every answer of the service have. *)
Theorem life_keeps_unique_ids (ops : list Op) :
  Forall answersDistinct ops → NoDup (ids (bookmarks (life ops))).
Proof.
  unfold life. assert (H0 : NoDup (ids (bookmarks initial))) by constructor.
  revert H0. generalize initial as s.
  induction ops as [|op ops IH]; intros s Hs Hall; simpl; [exact Hs|].
  apply Forall_cons in Hall as [Hop Hall].
  apply IH; [|exact Hall]. now apply perform_NoDup.
Qed.

Lemma serving_distinct (rows : list Bookmark) :
  NoDup (ids rows) → distinctRows (serving rows).
Proof. intros H q rows' Hd. simpl in Hd. now inversion Hd; subst. Qed.

Lemma life_keeps_unique_ids_witness :
  Forall answersDistinct aLife ∧
  ids (bookmarks (life aLife)) = ["3"; "1"] ∧
  NoDup (ids (bookmarks (life aLife))).
Proof.
  assert (H : Forall answersDistinct aLife).
  { repeat constructor.
    - apply serving_distinct. compute_done.
    - intros q rows Hd. discriminate Hd. }
  split; [exact H|]. split; [reflexivity | exact (life_keeps_unique_ids aLife H)].
Defined.

(** X11. When the component shows the list, it is not loading, there is
    no error message, the items are the held sequence, the count is its
    length and is not zero, and the noun is singular exactly for one
    bookmark. *)
Theorem render_list (s : State) n noun h items :
  render s = ListView n noun h items →
  loading s = false ∧ error s = "" ∧ items = bookmarks s ∧
  n = length items ∧ 0 < n ∧ (noun = "bookmark" ↔ n = 1).
Proof.
  unfold render, truthy. destruct (loading s); [discriminate|].
  destruct (String.eqb_spec (error s) "") as [He|_]; simpl; [|discriminate].
  destruct (Nat.eqb_spec (length (bookmarks s)) 0) as [|Hn]; [discriminate|].
  intros H. inversion H; subst. repeat split; auto; try lia.
  - destruct (Nat.eqb_spec (length (bookmarks s)) 1); [auto | discriminate].
  - intros ->. reflexivity.
Qed.

Lemma render_list_witness :
  render shown = ListView 2 "bookmarks" OnClickFetch [bmA; bmB] ∧
  error shown = "" ∧ 0 < 2.
Proof.
  pose proof (render_list shown 2 "bookmarks" OnClickFetch [bmA; bmB] eq_refl)
    as (_ & He & _ & _ & Hn & _).
  split; [reflexivity|]. split; [exact He | exact Hn].
Defined.

End FetchFacts.

(** * Deleting from the list, and the subscription set up in time *)

Section DeleteAndFeed.
Import BookmarkList Dashboard.
Variable trim : string → string.
Variable parsesAsURL : string → bool.

(** X12. After a delete that went through and a reload whose rows no
    longer contain the bookmark, the held sequence is those rows, and the
    DELETE event the change feed delivers for the same bookmark finds
    nothing to remove. *)
Theorem delete_then_event (supabase : Supabase) (b r : Bookmark)
    (item : BookmarkItem.State) (held : State) (user : User) (rows : list Bookmark) :
  write_answer supabase (Delete "bookmarks" "id" (id b)) = None →
  auth_getUser supabase = Some user →
  select_answer supabase (bookmarksQuery user) = mkSelectResponse (Some rows) None →
  id b ∉ ids rows →
  bookmarks (act trim parsesAsURL supabase (ClickDelete b item true) held).1 = rows ∧
  onPostgresChange (mkPayload "DELETE" r b)
    (act trim parsesAsURL supabase (ClickDelete b item true) held).1
  = (act trim parsesAsURL supabase (ClickDelete b item true) held).1.
Proof.
  intros Hw Hu Ha Hout.
  assert (E : (act trim parsesAsURL supabase (ClickDelete b item true) held).1
              = mkState rows false "").
  { simpl. unfold BookmarkItem.handleDelete. simpl. rewrite Hw.
    unfold onDeleted, fetchBookmarks. rewrite Hu. simpl. rewrite Ha. reflexivity. }
  rewrite E. split; [reflexivity|].
  unfold onPostgresChange, handleRealtimeEvent, setBookmarks. simpl.
  now rewrite applyRemoved_absent.
Qed.

End DeleteAndFeed.

Lemma delete_then_event_witness :
  BookmarkList.bookmarks
    (Dashboard.act noTrim anyURL (serving [bmA])
       (Dashboard.ClickDelete bmB (BookmarkItem.initial bmB) true) shown).1 = [bmA] ∧
  BookmarkList.onPostgresChange (mkPayload "DELETE" bmC bmB)
    (Dashboard.act noTrim anyURL (serving [bmA])
       (Dashboard.ClickDelete bmB (BookmarkItem.initial bmB) true) shown).1
  = BookmarkList.mkState [bmA] false "".
Proof.
  pose proof (delete_then_event noTrim anyURL (serving [bmA]) bmB bmC
                (BookmarkItem.initial bmB) shown alice [bmA] eq_refl eq_refl eq_refl)
    as H.
  destruct H as [H1 H2]; [compute_done|].
  split; [exact H1|]. rewrite H2. reflexivity.
Defined.

Section SubscriptionInTime.
Import BookmarkList.

(** X13. When the set-up has finished before the view is torn down,
    nothing stays open afterwards: a signed-in user's channel is removed
    by one call of [removeChannel], and with nobody signed in no channel
    was opened and none is removed. *)
Theorem setup_then_cleanup (user : option User) :
  subscribed (run [SetupResolved user; Cleanup]) = [] ∧
  removeCalls (run [SetupResolved user; Cleanup])
  = match user with Some u => [channelFor u] | None => [] end.
Proof.
  destruct user as [u|]; [|split; reflexivity].
  rewrite cleanup_after_setup. split; reflexivity.
Qed.

End SubscriptionInTime.

(** * The edit form of an item *)

Section EditForm.
Import BookmarkItem.
Variable trim : string → string.
Variable parsesAsURL : string → bool.


(** X15. Saving an edit never changes what the user typed.  Either the
    update went through, and the editor is closed with no error shown,
    or the editor stays as it was and an error message is shown. *)
Theorem handleSaveEdit_outcome (supabase : Supabase) (b : Bookmark) (s : State) :
  editTitle (handleSaveEdit trim parsesAsURL supabase b s).1 = editTitle s ∧
  editUrl (handleSaveEdit trim parsesAsURL supabase b s).1 = editUrl s ∧
  ((isEditing (handleSaveEdit trim parsesAsURL supabase b s).1 = false ∧
    error (handleSaveEdit trim parsesAsURL supabase b s).1 = "" ∧
    saving (handleSaveEdit trim parsesAsURL supabase b s).1 = false ∧
    write_answer supabase
      (Update "bookmarks" (trim (editTitle s)) (trim (editUrl s)) "id" (id b)) = None)
   ∨
   (isEditing (handleSaveEdit trim parsesAsURL supabase b s).1 = isEditing s ∧
    BookmarkList.truthy (error (handleSaveEdit trim parsesAsURL supabase b s).1) = true)).
Proof.
  unfold handleSaveEdit.
  destruct (trim (editTitle s) =? ""); simpl; [auto|].
  destruct (trim (editUrl s) =? ""); simpl; [auto|].
  destruct (parsesAsURL (editUrl s)); simpl; [|auto].
  destruct (write_answer supabase _) eqn:Hw; simpl; auto 10.
Qed.

End EditForm.


(** X16. Opening the editor of an item in view mode, typing a title and
    a url, and cancelling brings the item back to the state it was in. *)
Theorem edit_type_cancel (b : Bookmark) (s : BookmarkItem.State) (t u : string) :
  BookmarkItem.isEditing s = false →
  BookmarkItem.editTitle s = title b →
  BookmarkItem.editUrl s = url b →
  BookmarkItem.error s = "" →
  BookmarkItem.handleCancelEdit b
    (BookmarkItem.setEditUrl u (BookmarkItem.setEditTitle t (BookmarkItem.handleEdit b s)))
  = s.
Proof.
  destruct s as [e et eu sv dl er]. simpl. intros -> -> -> ->. reflexivity.
Qed.

Lemma edit_type_cancel_witness :
  BookmarkItem.handleCancelEdit bmA
    (BookmarkItem.setEditUrl "https://x.example"
       (BookmarkItem.setEditTitle "X"
          (BookmarkItem.handleEdit bmA (BookmarkItem.initial bmA))))
  = BookmarkItem.initial bmA.
Proof.
  exact (edit_type_cancel bmA (BookmarkItem.initial bmA) "X" "https://x.example"
           eq_refl eq_refl eq_refl eq_refl).
Defined.

(** * The add form *)

Section AddForm.
Import AddBookmarkForm.
Variable trim : string → string.
Variable parsesAsURL : string → bool.
Context {P : Type}.

(** X17. Whatever the add form sends, apart from what its callback
    sends, is the question who is signed in or one insert into
    "bookmarks" of the trimmed title and url under the id of the
    signed-in user, made only after the url as typed has parsed. *)
Theorem handleSubmit_calls (supabase : Supabase) (onBookmarkAdded : Callback P)
    (s : State) (parent : P) (c : Call) :
  c ∈ (handleSubmit trim parsesAsURL supabase onBookmarkAdded s parent).2 →
  c = GetUser ∨
  (∃ user, auth_getUser supabase = Some user ∧ parsesAsURL (url s) = true ∧
           c = Insert "bookmarks" (uid user) (trim (title s)) (trim (url s))) ∨
  c ∈ (onBookmarkAdded parent).2.
Proof.
  unfold handleSubmit. simpl.
  destruct (parsesAsURL (url s)); simpl; [|intros H; inversion H].
  destruct (auth_getUser supabase) as [user|]; simpl.
  - destruct (write_answer supabase _); simpl.
    + rewrite !elem_of_cons, elem_of_nil. intros [->|[->|[]]]; eauto 6.
    + destruct (onBookmarkAdded parent) as [parent' calls]. simpl.
      rewrite !elem_of_cons. intros [->|[->|H]]; eauto 6.
  - rewrite list_elem_of_singleton. auto.
Qed.


End AddForm.

Lemma handleSubmit_calls_witness :
  Insert "bookmarks" "u1" "C" "https://c.example"
    ∈ (AddBookmarkForm.handleSubmit noTrim anyURL (serving [])
         Dashboard.onBookmarkAdded typedForm shown).2 ∧
  (Insert "bookmarks" "u1" "C" "https://c.example" = GetUser ∨
   (∃ user, auth_getUser (serving []) = Some user ∧
            anyURL (AddBookmarkForm.url typedForm) = true ∧
            Insert "bookmarks" "u1" "C" "https://c.example"
            = Insert "bookmarks" (uid user) (noTrim (AddBookmarkForm.title typedForm))
                     (noTrim (AddBookmarkForm.url typedForm))) ∨
   Insert "bookmarks" "u1" "C" "https://c.example"
     ∈ (Dashboard.onBookmarkAdded shown).2).
Proof.
  assert (H : Insert "bookmarks" "u1" "C" "https://c.example"
              ∈ (AddBookmarkForm.handleSubmit noTrim anyURL (serving [])
                   Dashboard.onBookmarkAdded typedForm shown).2).
  { apply list_elem_of_further, list_elem_of_here. }
  split; [exact H|].
  exact (handleSubmit_calls noTrim anyURL (serving []) Dashboard.onBookmarkAdded
           typedForm shown _ H).
Defined.

(** X19. As the dashboard wires the form: while the submit button is
    enabled, an insert made by the form carries a title and a url that
    are not empty. *)
Theorem enabled_submit_inserts_nonempty (trim : string → string)
    (parsesAsURL : string → bool) (supabase : Supabase)
    (s : AddBookmarkForm.State) (held : BookmarkList.State) t uid_ ti u :
  AddBookmarkFormView.submitDisabled trim s = false →
  Insert t uid_ ti u
    ∈ (AddBookmarkForm.handleSubmit trim parsesAsURL supabase
         Dashboard.onBookmarkAdded s held).2 →
  ti ≠ "" ∧ u ≠ "".
Proof.
  unfold AddBookmarkFormView.submitDisabled.
  rewrite !orb_false_iff. intros [[_ Ht%String.eqb_neq] Hu%String.eqb_neq] Hc.
  revert Hc. unfold AddBookmarkForm.handleSubmit, Dashboard.onBookmarkAdded. simpl.
  destruct (parsesAsURL _); simpl; [|intros H; inversion H].
  destruct (auth_getUser supabase) as [user|]; simpl;
    [|rewrite list_elem_of_singleton; discriminate].
  destruct (write_answer supabase _); simpl;
    rewrite !elem_of_cons, elem_of_nil; intros [H|[H|[]]];
    try discriminate H; inversion H; subst; auto.
Qed.

Lemma enabled_submit_inserts_nonempty_witness :
  AddBookmarkFormView.submitDisabled noTrim typedForm = false ∧
  "C" ≠ "" ∧ "https://c.example" ≠ "".
Proof.
  split; [reflexivity|].
  apply (enabled_submit_inserts_nonempty noTrim anyURL (serving [])
           typedForm shown "bookmarks" "u1").
  - reflexivity.
  - apply list_elem_of_further, list_elem_of_here.
Defined.

(** * The two routes *)

Section Routes.
Import Pages.

(** X20. The guards of the two routes fit together: from "/" as from
    "/dashboard", after at most one redirect a signed-in user gets the
    dashboard and anybody else the login page, so the two never send a
    visitor back and forth. *)
Theorem routes_settle (path : string) (user : option User) :
  path = "/" ∨ path = "/dashboard" →
  visit 1 path user
  = Some (match user with Some u => RenderDashboard u | None => RenderLogin end).
Proof.
  intros [-> | ->]; destruct user; reflexivity.
Qed.

Lemma routes_settle_witness :
  visit 1 "/dashboard" None = Some RenderLogin ∧
  visit 1 "/" (Some alice) = Some (RenderDashboard alice).
Proof.
  split.
  - apply (routes_settle "/dashboard" None). right. reflexivity.
  - apply (routes_settle "/" (Some alice)). left. reflexivity.
Defined.

End Routes.
